(** * glue-mcp: the AWS Glue Data Catalog facade served over MCP

    A shallow embedding of [src/src/lib.rs]: the three catalog tools
    ([list_databases], [get_database_metadata], [get_table_metadata]),
    the constructor [from_env], the [ServerHandler] methods
    [get_info], [list_resources], [read_resource], [list_prompts],
    [get_prompt] and [list_resource_templates], and [start_server] of
    [src/src/util.rs].

    The AWS Glue client is an oracle: a [Client] fixes the answer of
    each request, and every [send] is recorded in the world's call log,
    so the number and arguments of backend calls are observable.  The
    async bodies run in a small state monad over [World] whose outcome
    is a returned value, an [Err] propagated by [?], or a panic
    ([unwrap]/[expect]). *)

From Stdlib Require Import String List ZArith Bool Ascii.
Import ListNotations.
Open Scope string_scope.
Set Warnings "-register-all".

(** ** Rust's [Result] *)

Inductive Result (A E : Type) : Type :=
| Ok (a : A)
| Err (e : E).
Arguments Ok {A E} a.
Arguments Err {A E} e.

(** [Result::map_err] *)
Definition map_err {A E F : Type} (r : Result A E) (f : E -> F) : Result A F :=
  match r with
  | Ok a => Ok a
  | Err e => Err (f e)
  end.

(** [Option::and_then] and [Option::unwrap_or_default] (at slices). *)
Definition and_then {A B : Type} (o : option A) (f : A -> option B) : option B :=
  match o with
  | Some a => f a
  | None => None
  end.

Definition unwrap_or_default {A : Type} (o : option (list A)) : list A :=
  match o with
  | Some l => l
  | None => []
  end.

(** ** serde_json::Value *)

Inductive Value : Type :=
| VNull
| VBool (b : bool)
| VNumber (z : Z)
| VString (s : string)
| VArray (l : list Value)
| VObject (fields : list (string * Value)).

(** [json!({"error": s})], the payload of every internal error here. *)
Definition error_payload (s : string) : option Value :=
  Some (VObject [("error", VString s)]).

(** ** rmcp's error type ([McpError] = [ErrorData]) and results *)

Definition INVALID_PARAMS : Z := -32602.
Definition INTERNAL_ERROR : Z := -32603.
Definition RESOURCE_NOT_FOUND : Z := -32002.

Record ErrorData := {
  code : Z;
  message : string;
  data : option Value
}.

Definition internal_error (msg : string) (d : option Value) : ErrorData :=
  {| code := INTERNAL_ERROR; message := msg; data := d |}.

Definition invalid_params (msg : string) (d : option Value) : ErrorData :=
  {| code := INVALID_PARAMS; message := msg; data := d |}.

Definition resource_not_found (msg : string) (d : option Value) : ErrorData :=
  {| code := RESOURCE_NOT_FOUND; message := msg; data := d |}.

(** [Content::json(v)]: a text content holding the JSON rendering of [v];
    the rendering itself is kept symbolic. *)
Inductive Content : Type :=
| ContentJson (v : Value).

Record CallToolResult := {
  content : list Content;
  is_error : option bool
}.

Definition success (c : list Content) : CallToolResult :=
  {| content := c; is_error := Some false |}.

(** ** Result records of the tools (lib.rs lines 11-26) *)

Record ListDatabasesResult := { databases : list string }.

Record DatabaseMetadata := {
  dm_name : string;
  tables : list string
}.

Record TableMetadata := {
  tm_name : string;
  columns : list string
}.

(** ** serde: [Serialize] and [serde_json::to_value]

    [to_value] is the serializer of the type; it may fail with a
    [serde_json::Error], whose [to_string] is [serde_display]. *)

Record SerdeError := { serde_display : string }.

Class Serialize (T : Type) := to_value : T -> Result Value SerdeError.

(** The [#[derive(Serialize)]] implementations: a struct becomes an
    object with one field per struct field, in declaration order. *)
#[export] Instance Serialize_ListDatabasesResult : Serialize ListDatabasesResult :=
  fun r => Ok (VObject [("databases", VArray (map VString (databases r)))]).

#[export] Instance Serialize_DatabaseMetadata : Serialize DatabaseMetadata :=
  fun r => Ok (VObject [("name", VString (dm_name r));
                        ("tables", VArray (map VString (tables r)))]).

#[export] Instance Serialize_TableMetadata : Serialize TableMetadata :=
  fun r => Ok (VObject [("name", VString (tm_name r));
                        ("columns", VArray (map VString (columns r)))]).

(** ** aws_sdk_glue types (the fields the code reads) *)

Record Database := { db_name : string }.

Record GetDatabasesOutput := {
  database_list_field : list Database;
  databases_next_token : option string
}.

(** [GetDatabasesOutput::database_list] *)
Definition database_list (o : GetDatabasesOutput) : list Database :=
  database_list_field o.

Record Column := { col_name : string }.

Record StorageDescriptor := { sd_columns : option (list Column) }.

(** [StorageDescriptor::columns]: the slice, empty when unset. *)
Definition sd_columns_slice (sd : StorageDescriptor) : list Column :=
  unwrap_or_default (sd_columns sd).

Record Table := {
  table_name : string;
  storage_descriptor : option StorageDescriptor
}.

Record GetTablesOutput := {
  table_list_field : option (list Table);
  tables_next_token : option string
}.

(** [GetTablesOutput::table_list]: the slice, empty when unset. *)
Definition table_list (o : GetTablesOutput) : list Table :=
  unwrap_or_default (table_list_field o).

Record GetTableOutput := { table : option Table }.

(** [SdkError]; [sdk_display] is its [to_string] ([Display]),
    [sdk_debug] its [{:?}] ([Debug]) rendering. *)
Record SdkError := { sdk_display : string; sdk_debug : string }.

(** The requests the code sends. *)
Inductive Request : Type :=
| GetDatabases
| GetTables (database_name : string)
| GetTable (database_name name : string).

(** The Glue client: its configured region and the backend's answer to
    each request. *)
Record Client := {
  client_region : option string;
  on_get_databases : Result GetDatabasesOutput SdkError;
  on_get_tables : string -> Result GetTablesOutput SdkError;
  on_get_table : string -> string -> Result GetTableOutput SdkError
}.

Record GlueDataCatalog := { client : Client }.

(** [GlueDataCatalog::new] *)
Definition new (c : Client) : GlueDataCatalog := {| client := c |}.

(** ** The world and the monad of the async bodies *)

Record World := {
  calls : list Request;          (** requests sent to the backend *)
  log_lines : list string;       (** [log::info!] and [tracing::info!] output *)
  counters : list (string * list (string * string));
                                 (** metric counter increments, name and labels *)
  log_info_enabled : bool;       (** [Level::Info <= log::max_level()] *)
  tracing_info_enabled : bool    (** tracing's subscriber enables [INFO] *)
}.

Inductive Outcome (A : Type) : Type :=
| Ret (a : A)
| Raise (e : ErrorData)
| Panic (msg : string).
Arguments Ret {A} a.
Arguments Raise {A} e.
Arguments Panic {A} msg.

Definition M (A : Type) : Type := World -> Outcome A * World.

Definition ret {A : Type} (a : A) : M A := fun w => (Ret a, w).

Definition bind {A B : Type} (m : M A) (k : A -> M B) : M B :=
  fun w =>
    match m w with
    | (Ret a, w1) => k a w1
    | (Raise e, w1) => (Raise e, w1)
    | (Panic s, w1) => (Panic s, w1)
    end.

Notation "x <- m ;; k" := (bind m (fun x => k))
  (at level 61, m at next level, right associativity).
Notation "m ;;; k" := (bind m (fun _ => k))
  (at level 61, right associativity).

(** The [?] operator on a [Result _ McpError]. *)
Definition question {A : Type} (r : Result A ErrorData) : M A :=
  fun w =>
    match r with
    | Ok a => (Ret a, w)
    | Err e => (Raise e, w)
    end.

Definition panic {A : Type} (msg : string) : M A := fun w => (Panic msg, w).

(** [Option::unwrap] *)
Definition unwrap {A : Type} (o : option A) : M A :=
  match o with
  | Some a => ret a
  | None => panic "called `Option::unwrap()` on a `None` value"
  end.

Definition append_line (s : string) (w : World) : World :=
  {| calls := calls w; log_lines := log_lines w ++ [s]; counters := counters w;
     log_info_enabled := log_info_enabled w;
     tracing_info_enabled := tracing_info_enabled w |}.

(** [log::info!(fmt, args..)]: the macro tests the level first; only when
    [Info] is enabled are the format arguments [msg] evaluated (a panic
    among them propagates) and the line emitted. *)
Definition log_info (msg : M string) : M unit :=
  fun w =>
    if log_info_enabled w then
      match msg w with
      | (Ret s, w1) => (Ret tt, append_line s w1)
      | (Raise e, w1) => (Raise e, w1)
      | (Panic m, w1) => (Panic m, w1)
      end
    else (Ret tt, w).

(** [tracing::info!] with already evaluated arguments. *)
Definition tracing_info (s : string) : M unit :=
  fun w => if tracing_info_enabled w then (Ret tt, append_line s w) else (Ret tt, w).

Definition record_call (r : Request) (w : World) : World :=
  {| calls := calls w ++ [r]; log_lines := log_lines w; counters := counters w;
     log_info_enabled := log_info_enabled w;
     tracing_info_enabled := tracing_info_enabled w |}.

(** [.send().await] of each request builder: one backend call. *)
Definition send_get_databases (c : Client) : M (Result GetDatabasesOutput SdkError) :=
  fun w => (Ret (on_get_databases c), record_call GetDatabases w).

Definition send_get_tables (c : Client) (database_name : string)
  : M (Result GetTablesOutput SdkError) :=
  fun w => (Ret (on_get_tables c database_name), record_call (GetTables database_name) w).

Definition send_get_table (c : Client) (database_name name : string)
  : M (Result GetTableOutput SdkError) :=
  fun w => (Ret (on_get_table c database_name name),
            record_call (GetTable database_name name) w).

(** [Content::json(v)] on a [serde_json::Value] always succeeds. *)
Definition content_json (v : Value) : Result Content ErrorData := Ok (ContentJson v).

(** [format!("{}", n)] for the column count of the second log line. *)
Fixpoint digits_aux (fuel n : nat) (acc : string) : string :=
  match fuel with
  | O => acc
  | S f =>
      let d := String (ascii_of_nat (48 + n mod 10)) EmptyString in
      if Nat.ltb n 10 then d ++ acc else digits_aux f (n / 10) (d ++ acc)
  end.

Definition nat_to_string (n : nat) : string := digits_aux (S n) n "".

(** ** The catalog tools (lib.rs lines 33-178)

    Generic in the three [Serialize] instances, so that the error
    branch of [serde_json::to_value] can be exercised; the program's
    instances are the derived ones above. *)

Section Tools.
Context `{SL : Serialize ListDatabasesResult}
        `{SD : Serialize DatabaseMetadata}
        `{ST : Serialize TableMetadata}.

(** [serde_json::to_value(result).map_err(..)?] *)
Definition serialize_result {T : Type} `{Serialize T} (result : T) : M Value :=
  question (map_err (to_value result)
    (fun e => internal_error "Failed to serialize result"
                (error_payload (serde_display e)))).

(** [list_databases] (lines 49-76) *)
Definition list_databases (self : GlueDataCatalog) : M CallToolResult :=
  log_info (region <- unwrap (client_region (client self)) ;;
            ret ("Listing databases in " ++ region)) ;;;
  r <- send_get_databases (client self) ;;
  response <- question (map_err r (fun e =>
                 internal_error "Failed to list databases"
                   (error_payload (sdk_display e)))) ;;
  let databases := map db_name (database_list response) in
  let result := {| databases := databases |} in
  json_result <- serialize_result result ;;
  c <- question (content_json json_result) ;;
  ret (success [c]).

(** [get_database_metadata] (lines 78-117) *)
Definition get_database_metadata (self : GlueDataCatalog) (database_name : string)
  : M CallToolResult :=
  log_info (ret ("Getting tables for database " ++ database_name)) ;;;
  r <- send_get_tables (client self) database_name ;;
  response <- question (map_err r (fun e =>
                 internal_error "Failed to get tables"
                   (error_payload (sdk_display e)))) ;;
  let tables := map table_name (table_list response) in
  let result := {| dm_name := database_name; tables := tables |} in
  json_result <- serialize_result result ;;
  c <- question (content_json json_result) ;;
  ret (success [c]).

(** [get_table_metadata] (lines 119-167) *)
Definition get_table_metadata (self : GlueDataCatalog)
  (database_name table_name_arg : string) : M CallToolResult :=
  log_info (ret ("Getting columns for table " ++ table_name_arg)) ;;;
  r <- send_get_table (client self) database_name table_name_arg ;;
  response <- question (map_err r (fun e =>
                 internal_error "Failed to get table metadata"
                   (error_payload (sdk_display e)))) ;;
  let columns :=
    map col_name
      (unwrap_or_default
         (and_then (and_then (table response) storage_descriptor)
                   (fun sd => Some (sd_columns_slice sd)))) in
  log_info (ret ("Got " ++ nat_to_string (length columns) ++ " columns for table "
                 ++ table_name_arg)) ;;;
  let result := {| tm_name := table_name_arg; columns := columns |} in
  json_result <- serialize_result result ;;
  c <- question (content_json json_result) ;;
  ret (success [c]).

End Tools.

(** [from_env] (lines 40-47): the client built from the ambient AWS
    configuration is given; the probe [get_databases] is sent and
    [.expect("Couldn't connect to AWS")] panics on its error with the
    message [{msg}: {e:?}], the error's [Debug] rendering appended. *)
Definition from_env (c : Client) : M GlueDataCatalog :=
  r <- send_get_databases c ;;
  match r with
  | Ok _ => ret {| client := c |}
  | Err e => panic ("Couldn't connect to AWS: " ++ sdk_debug e)
  end.

(** ** The [ServerHandler] methods (lines 180-291) *)

Record ProtocolVersion := { protocol_version_str : string }.

Definition V_2024_11_05 : ProtocolVersion := {| protocol_version_str := "2024-11-05" |}.

Record PromptsCapability := { prompts_list_changed : option bool }.
Record ResourcesCapability := {
  resources_subscribe : option bool;
  resources_list_changed : option bool
}.
Record ToolsCapability := { tools_list_changed : option bool }.

Record ServerCapabilities := {
  experimental : option (list (string * Value));
  logging : option (list (string * Value));
  prompts : option PromptsCapability;
  resources : option ResourcesCapability;
  tools : option ToolsCapability
}.

(** [ServerCapabilities::builder()], [.enable_tools()], [.build()] *)
Definition capabilities_builder : ServerCapabilities :=
  {| experimental := None; logging := None; prompts := None;
     resources := None; tools := None |}.

Definition enable_tools (b : ServerCapabilities) : ServerCapabilities :=
  {| experimental := experimental b; logging := logging b; prompts := prompts b;
     resources := resources b; tools := Some {| tools_list_changed := None |} |}.

Definition build (b : ServerCapabilities) : ServerCapabilities := b.

Record Implementation := { impl_name : string; impl_version : string }.

(** [Implementation::from_build_env()]: the crate name and version fixed
    when rmcp is compiled. *)
Definition from_build_env : Implementation :=
  {| impl_name := "rmcp"; impl_version := "0.1.5" |}.

Record ServerInfo := {
  protocol_version : ProtocolVersion;
  capabilities : ServerCapabilities;
  server_info : Implementation;
  instructions : option string
}.

Definition get_info (self : GlueDataCatalog) : ServerInfo :=
  {| protocol_version := V_2024_11_05;
     capabilities := build (enable_tools capabilities_builder);
     server_info := from_build_env;
     instructions := Some "This server provides a glue data catalog tool that can be used to get database and table metadata from an AWS Glue Data Catalog" |}.

Record Resource := { resource_uri : string; resource_name : string }.

Record ListResourcesResult := {
  resources_list : list Resource;
  next_cursor : option string
}.

(** [PaginatedRequestParam]: an optional cursor. *)
Record PaginatedRequestParam := { cursor : option string }.

Definition list_resources (self : GlueDataCatalog)
  (_request : option PaginatedRequestParam) : Result ListResourcesResult ErrorData :=
  Ok {| resources_list := []; next_cursor := None |}.

Record TextResourceContents := {
  rc_uri : string;
  mime_type : option string;
  text : string
}.

(** [ResourceContents::text(text, uri)] *)
Definition resource_contents_text (t uri : string) : TextResourceContents :=
  {| rc_uri := uri; mime_type := Some "text"; text := t |}.

Record ReadResourceResult := { contents : list TextResourceContents }.

Definition newline : string := String (ascii_of_nat 10) EmptyString.

Definition cwd_text : string := "/Users/to/some/path/".

Definition memo_text : string :=
  "Business Intelligence Memo" ++ newline ++ newline
  ++ "Analysis has revealed 5 key insights ...".

Definition read_resource (self : GlueDataCatalog) (uri : string)
  : Result ReadResourceResult ErrorData :=
  if String.eqb uri "str:////Users/to/some/path/" then
    Ok {| contents := [resource_contents_text cwd_text uri] |}
  else if String.eqb uri "memo://insights" then
    Ok {| contents := [resource_contents_text memo_text uri] |}
  else
    Err (resource_not_found "resource_not_found"
           (Some (VObject [("uri", VString uri)]))).

(** ** Prompts and resource templates (lib.rs lines 235-290) *)

(** [JsonObject]: a serde_json map; [obj_get] is [Map::get] (keys of a
    map are distinct, the first binding is the one). *)
Definition JsonObject := list (string * Value).

Fixpoint obj_get (k : string) (o : JsonObject) : option Value :=
  match o with
  | [] => None
  | (k', v) :: rest => if String.eqb k k' then Some v else obj_get k rest
  end.

(** [Value::as_str] *)
Definition as_str (v : Value) : option string :=
  match v with
  | VString s => Some s
  | _ => None
  end.

Record PromptArgument := {
  pa_name : string;
  pa_description : option string;
  pa_required : option bool
}.

Record Prompt := {
  prompt_name : string;
  prompt_description : option string;
  prompt_arguments : option (list PromptArgument)
}.

(** [Prompt::new] *)
Definition prompt_new (name : string) (description : option string)
  (arguments : option (list PromptArgument)) : Prompt :=
  {| prompt_name := name; prompt_description := description;
     prompt_arguments := arguments |}.

Record ListPromptsResult := {
  prompts_next_cursor : option string;
  prompts_list : list Prompt
}.

Definition list_prompts (self : GlueDataCatalog)
  (_request : option PaginatedRequestParam) : Result ListPromptsResult ErrorData :=
  Ok {| prompts_next_cursor := None;
        prompts_list :=
          [prompt_new "example_prompt"
             (Some "This is an example prompt that takes one required argument, message")
             (Some [{| pa_name := "message";
                       pa_description := Some "A message to put in the prompt";
                       pa_required := Some true |}])] |}.

Inductive PromptMessageRole := User | Assistant.

(** [PromptMessageContent::text] *)
Inductive PromptMessageContent := PromptText (t : string).

Record PromptMessage := {
  role : PromptMessageRole;
  pm_content : PromptMessageContent
}.

Record GetPromptResult := {
  gp_description : option string;
  messages : list PromptMessage
}.

Record GetPromptRequestParam := {
  gp_name : string;
  arguments : option JsonObject
}.

Definition get_prompt (self : GlueDataCatalog) (param : GetPromptRequestParam)
  : Result GetPromptResult ErrorData :=
  if String.eqb (gp_name param) "example_prompt" then
    match and_then (arguments param)
            (fun json => and_then (obj_get "message" json) as_str) with
    | None => Err (invalid_params "No message provided to example_prompt" None)
    | Some message =>
        let prompt :=
          "This is an example prompt with your message here: '" ++ message ++ "'" in
        Ok {| gp_description := None;
              messages := [{| role := User; pm_content := PromptText prompt |}] |}
    end
  else Err (invalid_params "prompt not found" None).

Record ListResourceTemplatesResult := {
  templates_next_cursor : option string;
  resource_templates : list Resource
}.

Definition list_resource_templates (self : GlueDataCatalog)
  (_request : option PaginatedRequestParam) : Result ListResourceTemplatesResult ErrorData :=
  Ok {| templates_next_cursor := None; resource_templates := [] |}.

(** ** [start_server] (util.rs lines 30-45)

    The address parser ([str::parse::<SocketAddr>]) and the listener
    ([SseServer::serve(addr).await]) are std and rmcp; they are given,
    with their errors as the text [anyhow] reports.  [c] is the client
    [from_env] builds from the ambient configuration. *)

(** The running server returned as a cancellation token: it serves
    clones of [serving_service]. *)
Record ServingHandle := { serving_service : GlueDataCatalog }.

Section Server.
Variable SocketAddr : Type.
Variable parse_socket_addr : string -> Result SocketAddr string.
Variable sse_serve : SocketAddr -> Result unit string.

Definition start_server (c : Client) (bind_address : string)
  : M (Result ServingHandle string) :=
  tracing_info ("Starting server on " ++ bind_address) ;;;
  service <- from_env c ;;
  match parse_socket_addr bind_address with
  | Err e => ret (Err e)
  | Ok addr =>
      match sse_serve addr with
      | Err e => ret (Err e)
      | Ok _ => ret (Ok {| serving_service := service |})
      end
  end.

End Server.

(** ** Sample backends *)

Definition w0 : World :=
  {| calls := []; log_lines := []; counters := [];
     log_info_enabled := true; tracing_info_enabled := true |}.

(** No logger installed: [log::max_level()] is [Off]. *)
Definition w_quiet : World :=
  {| calls := []; log_lines := []; counters := [];
     log_info_enabled := false; tracing_info_enabled := false |}.

Definition no_tables : Result GetTablesOutput SdkError :=
  Ok {| table_list_field := None; tables_next_token := None |}.

(** The spec's scenario backend: databases [sales] and [ops], an empty
    database [empty_db], table [t1] of [db1] with columns [id], [name],
    and a failing lookup for [missing_db]. *)
Definition scenario_client : Client :=
  {| client_region := Some "eu-west-1";
     on_get_databases :=
       Ok {| database_list_field := [{| db_name := "sales" |}; {| db_name := "ops" |}];
             databases_next_token := Some "page2" |};
     on_get_tables := fun _ => no_tables;
     on_get_table := fun db t =>
       if String.eqb db "missing_db" then
         Err {| sdk_display := "service error";
                sdk_debug := "ServiceError(ServiceError { source: EntityNotFoundException })" |}
       else
         Ok {| table := Some {| table_name := t;
                                storage_descriptor :=
                                  Some {| sd_columns := Some [{| col_name := "id" |};
                                                              {| col_name := "name" |}] |} |} |} |}.

Definition scenario : GlueDataCatalog := new scenario_client.

(** A backend whose every call fails. *)
Definition denied : SdkError :=
  {| sdk_display := "service error";
     sdk_debug := "ServiceError(ServiceError { source: AccessDeniedException })" |}.

Definition failing_client : Client :=
  {| client_region := Some "us-east-1";
     on_get_databases := Err denied;
     on_get_tables := fun _ => Err denied;
     on_get_table := fun _ _ => Err denied |}.

Definition failing : GlueDataCatalog := new failing_client.

(** The same backend reached by a client without a region. *)
Definition failing_regionless : Client :=
  {| client_region := None;
     on_get_databases := Err denied;
     on_get_tables := fun _ => Err denied;
     on_get_table := fun _ _ => Err denied |}.

(** A table without storage descriptor, and one whose descriptor has
    no columns. *)
Definition bare_client : Client :=
  {| client_region := None;
     on_get_databases := Ok {| database_list_field := []; databases_next_token := None |};
     on_get_tables := fun _ => no_tables;
     on_get_table := fun _ t =>
       if String.eqb t "bare" then
         Ok {| table := Some {| table_name := t; storage_descriptor := None |} |}
       else
         Ok {| table := Some {| table_name := t;
                                storage_descriptor := Some {| sd_columns := None |} |} |} |}.

Definition bare : GlueDataCatalog := new bare_client.

(** A serializer that always fails, to reach the encoding error path. *)
Definition broken_serializer {T : Type} : Serialize T :=
  fun _ => Err {| serde_display := "key must be a string" |}.

(** Whether an outcome is a panic. *)
Definition is_panic {A : Type} (o : Outcome A) : bool :=
  match o with
  | Panic _ => true
  | _ => false
  end.

(** Raised error code of an outcome, if any. *)
Definition raised_code {A : Type} (o : Outcome A) : option Z :=
  match o with
  | Raise e => Some (code e)
  | _ => None
  end.

(** ** Scenario runs *)

Example list_databases_scenario :
  fst (list_databases scenario w0)
  = Ret (success [ContentJson (VObject [("databases",
                    VArray [VString "sales"; VString "ops"])])]).
Proof. reflexivity. Qed.

Example get_database_metadata_empty_db :
  fst (get_database_metadata scenario "empty_db" w0)
  = Ret (success [ContentJson (VObject [("name", VString "empty_db");
                                        ("tables", VArray [])])]).
Proof. reflexivity. Qed.

Example get_table_metadata_t1 :
  get_table_metadata scenario "db1" "t1" w0
  = (Ret (success [ContentJson (VObject [("name", VString "t1");
                                         ("columns", VArray [VString "id"; VString "name"])])]),
     {| calls := [GetTable "db1" "t1"];
        log_lines := ["Getting columns for table t1"; "Got 2 columns for table t1"];
        counters := [];
        log_info_enabled := true; tracing_info_enabled := true |}).
Proof. reflexivity. Qed.

Example get_table_metadata_missing_db :
  fst (get_table_metadata scenario "missing_db" "t1" w0)
  = Raise (internal_error "Failed to get table metadata"
             (error_payload "service error")).
Proof. reflexivity. Qed.

Example list_databases_no_region :
  list_databases bare w0
  = (Panic "called `Option::unwrap()` on a `None` value", w0).
Proof. reflexivity. Qed.

(** ** Properties *)

(** Case analysis on the [Info] level gate of [log::info!], rewriting
    with the case already taken where the same world's flag reappears. *)
Ltac gate_step :=
  match goal with
  | H : log_info_enabled ?w = _ |- context [log_info_enabled ?w] => rewrite H
  | |- context [log_info_enabled ?w] =>
      let H := fresh "Hlog" in destruct (log_info_enabled w) eqn:H
  end.

Ltac gated := repeat (cbn; gate_step); cbn.

(** Claim C1: a successful [list_databases] returns exactly the names of
    the databases of the one [get_databases] response, in the backend's
    order (no sorting, filtering or deduplication), and exactly one
    backend call, [GetDatabases], is made. *)
Theorem list_databases_identity (self : GlueDataCatalog) (w w' : World)
  (r : CallToolResult)
  (Hok : list_databases self w = (Ret r, w')) :
  exists response : GetDatabasesOutput,
    on_get_databases (client self) = Ok response
    /\ r = success [ContentJson (VObject [("databases",
             VArray (map VString (map db_name (database_list response))))])]
    /\ calls w' = (calls w ++ [GetDatabases])%list.
Proof.
  unfold list_databases, unwrap, bind, ret, panic, log_info, send_get_databases,
    question, serialize_result, map_err, content_json, record_call, append_line in Hok.
  destruct (on_get_databases (client self)) as [response|e] eqn:Hr;
    destruct (log_info_enabled w); destruct (client_region (client self));
    cbn in Hok; try discriminate; injection Hok as <- <-;
    exists response; repeat split.
Qed.

Lemma list_databases_identity_witness :
  list_databases scenario w0
  = (Ret (success [ContentJson (VObject [("databases",
           VArray [VString "sales"; VString "ops"])])]),
     {| calls := [GetDatabases]; log_lines := ["Listing databases in eu-west-1"];
        counters := [];
        log_info_enabled := true; tracing_info_enabled := true |})
  /\ exists response : GetDatabasesOutput,
       on_get_databases (client scenario) = Ok response
       /\ success [ContentJson (VObject [("databases",
             VArray [VString "sales"; VString "ops"])])]
          = success [ContentJson (VObject [("databases",
             VArray (map VString (map db_name (database_list response))))])]
       /\ calls {| calls := [GetDatabases]; log_lines := ["Listing databases in eu-west-1"];
                   counters := [];
        log_info_enabled := true; tracing_info_enabled := true |} = (calls w0 ++ [GetDatabases])%list.
Proof.
  split; [reflexivity|].
  apply (list_databases_identity scenario w0). reflexivity.
Defined.

(** Claim C2: a successful [get_database_metadata database_name] echoes
    [database_name] as the record's name and lists exactly the names of
    the tables the backend reports for that database, in backend order. *)
Theorem get_database_metadata_echo (self : GlueDataCatalog) (database_name : string)
  (w w' : World) (r : CallToolResult)
  (Hok : get_database_metadata self database_name w = (Ret r, w')) :
  exists response : GetTablesOutput,
    on_get_tables (client self) database_name = Ok response
    /\ r = success [ContentJson (VObject [("name", VString database_name);
             ("tables", VArray (map VString (map table_name (table_list response))))])]
    /\ calls w' = (calls w ++ [GetTables database_name])%list.
Proof.
  unfold get_database_metadata, bind, ret, log_info, send_get_tables,
    question, serialize_result, map_err, content_json, record_call, append_line in Hok.
  destruct (on_get_tables (client self) database_name) as [response|e];
    destruct (log_info_enabled w); cbn in Hok; try discriminate;
    injection Hok as <- <-; exists response; repeat split.
Qed.

Lemma get_database_metadata_echo_witness :
  exists response : GetTablesOutput,
    on_get_tables (client scenario) "empty_db" = Ok response
    /\ success [ContentJson (VObject [("name", VString "empty_db"); ("tables", VArray [])])]
       = success [ContentJson (VObject [("name", VString "empty_db");
           ("tables", VArray (map VString (map table_name (table_list response))))])]
    /\ [GetTables "empty_db"] = (calls w0 ++ [GetTables "empty_db"])%list.
Proof.
  apply (get_database_metadata_echo scenario "empty_db" w0
           {| calls := [GetTables "empty_db"];
              log_lines := ["Getting tables for database empty_db"]; counters := [];
        log_info_enabled := true; tracing_info_enabled := true |}).
  reflexivity.
Defined.

(** Claim C3: when the describe-table call succeeds but the table has no
    storage descriptor, or its descriptor has no columns,
    [get_table_metadata] succeeds with the input table name and an empty
    column list. *)
Theorem get_table_metadata_no_columns (self : GlueDataCatalog)
  (database_name table_name_arg : string) (w : World)
  (response : GetTableOutput) (tbl : Table)
  (Hr : on_get_table (client self) database_name table_name_arg = Ok response)
  (Ht : table response = Some tbl)
  (Hsd : storage_descriptor tbl = None
         \/ exists sd, storage_descriptor tbl = Some sd /\ sd_columns_slice sd = []) :
  fst (get_table_metadata self database_name table_name_arg w)
  = Ret (success [ContentJson (VObject [("name", VString table_name_arg);
                                        ("columns", VArray [])])]).
Proof.
  unfold get_table_metadata, bind, ret, log_info, send_get_table,
    question, serialize_result, map_err, content_json, record_call.
  rewrite Hr. cbn. rewrite Ht. cbn.
  destruct Hsd as [Hn | (sd & Hs & Hc)].
  - rewrite Hn. gated; reflexivity.
  - rewrite Hs. cbn. rewrite Hc. gated; reflexivity.
Qed.

Lemma get_table_metadata_no_columns_witness :
  fst (get_table_metadata bare "db1" "bare" w0)
  = Ret (success [ContentJson (VObject [("name", VString "bare"); ("columns", VArray [])])])
  /\ fst (get_table_metadata bare "db1" "nocols" w0)
     = Ret (success [ContentJson (VObject [("name", VString "nocols");
                                           ("columns", VArray [])])]).
Proof.
  split.
  - apply (get_table_metadata_no_columns bare "db1" "bare" w0
             {| table := Some {| table_name := "bare"; storage_descriptor := None |} |}
             {| table_name := "bare"; storage_descriptor := None |}).
    + reflexivity.
    + reflexivity.
    + left. reflexivity.
  - apply (get_table_metadata_no_columns bare "db1" "nocols" w0
             {| table := Some {| table_name := "nocols";
                                 storage_descriptor := Some {| sd_columns := None |} |} |}
             {| table_name := "nocols"; storage_descriptor := Some {| sd_columns := None |} |}).
    + reflexivity.
    + reflexivity.
    + right. exists {| sd_columns := None |}. split; reflexivity.
Defined.

(** Claim C4: whatever the serializers, when the backend call of any of
    the three tools fails, the tool raises an internal error whose payload
    carries the backend error's description, after exactly one backend
    call (no retry), and returns no result.  [list_databases] reaches its
    call unless the [Info] gate of its log line is open and the region
    unset (then [region().unwrap()] panics first): the call is made when
    the client has a region or [Info] logging is off. *)
Theorem backend_failure_internal_error
  `{SL : Serialize ListDatabasesResult} `{SD : Serialize DatabaseMetadata}
  `{ST : Serialize TableMetadata} (self : GlueDataCatalog) (w : World) :
  (forall e : SdkError,
     match client_region (client self) with
     | Some _ => True
     | None => log_info_enabled w = false
     end ->
     on_get_databases (client self) = Err e ->
     exists w', @list_databases SL self w
                = (Raise (internal_error "Failed to list databases"
                            (error_payload (sdk_display e))), w')
                /\ calls w' = (calls w ++ [GetDatabases])%list)
  /\ (forall (database_name : string) (e : SdkError),
     on_get_tables (client self) database_name = Err e ->
     exists w', @get_database_metadata SD self database_name w
                = (Raise (internal_error "Failed to get tables"
                            (error_payload (sdk_display e))), w')
                /\ calls w' = (calls w ++ [GetTables database_name])%list)
  /\ (forall (database_name table_name_arg : string) (e : SdkError),
     on_get_table (client self) database_name table_name_arg = Err e ->
     exists w', @get_table_metadata ST self database_name table_name_arg w
                = (Raise (internal_error "Failed to get table metadata"
                            (error_payload (sdk_display e))), w')
                /\ calls w' = (calls w ++ [GetTable database_name table_name_arg])%list).
Proof.
  unfold list_databases, get_database_metadata, get_table_metadata, unwrap,
    bind, ret, log_info, send_get_databases, send_get_tables, send_get_table,
    question, map_err, record_call, append_line.
  split; [|split].
  - intros e Hreg He. destruct (client_region (client self)) as [region|].
    + gated; rewrite He; eexists; split; reflexivity.
    + rewrite Hreg. cbn. rewrite He. eexists. split; reflexivity.
  - intros db e He. gated; rewrite He; eexists; split; reflexivity.
  - intros db t e He. gated; rewrite He; eexists; split; reflexivity.
Qed.

Lemma backend_failure_internal_error_witness :
  (exists w', list_databases (new failing_regionless) w_quiet
              = (Raise (internal_error "Failed to list databases"
                          (error_payload "service error")), w')
              /\ calls w' = (calls w_quiet ++ [GetDatabases])%list)
  /\ (exists w', list_databases failing w0
              = (Raise (internal_error "Failed to list databases"
                          (error_payload "service error")), w')
              /\ calls w' = (calls w0 ++ [GetDatabases])%list)
  /\ (exists w', get_database_metadata failing "" w0
              = (Raise (internal_error "Failed to get tables"
                          (error_payload "service error")), w')
              /\ calls w' = (calls w0 ++ [GetTables ""])%list)
  /\ (exists w', get_table_metadata failing "missing_db" "t1" w0
              = (Raise (internal_error "Failed to get table metadata"
                          (error_payload "service error")), w')
              /\ calls w' = (calls w0 ++ [GetTable "missing_db" "t1"])%list).
Proof.
  destruct (backend_failure_internal_error (new failing_regionless) w_quiet)
    as (H0 & _ & _).
  destruct (backend_failure_internal_error failing w0) as (H1 & H2 & H3).
  split; [|split; [|split]].
  - exact (H0 denied eq_refl eq_refl).
  - exact (H1 denied I eq_refl).
  - exact (H2 "" denied eq_refl).
  - exact (H3 "missing_db" "t1" denied eq_refl).
Defined.

(** Claim C5: in each of the three tools, a failure of
    [serde_json::to_value] on the result record is raised as an internal
    error with message [Failed to serialize result] and the encoding
    error's description as payload; that message differs from each
    backend-call error message, so the two causes are distinguishable. *)
Theorem serialization_failure_distinct
  `{SL : Serialize ListDatabasesResult} `{SD : Serialize DatabaseMetadata}
  `{ST : Serialize TableMetadata} (self : GlueDataCatalog) (w : World) :
  (forall (region : string) (response : GetDatabasesOutput) (se : SerdeError),
     client_region (client self) = Some region ->
     on_get_databases (client self) = Ok response ->
     SL {| databases := map db_name (database_list response) |} = Err se ->
     fst (@list_databases SL self w)
     = Raise (internal_error "Failed to serialize result"
                (error_payload (serde_display se))))
  /\ (forall (database_name : string) (response : GetTablesOutput) (se : SerdeError),
     on_get_tables (client self) database_name = Ok response ->
     SD {| dm_name := database_name;
           tables := map table_name (table_list response) |} = Err se ->
     fst (@get_database_metadata SD self database_name w)
     = Raise (internal_error "Failed to serialize result"
                (error_payload (serde_display se))))
  /\ (forall (database_name table_name_arg : string) (response : GetTableOutput)
             (se : SerdeError),
     on_get_table (client self) database_name table_name_arg = Ok response ->
     ST {| tm_name := table_name_arg;
           columns := map col_name
             (unwrap_or_default
                (and_then (and_then (table response) storage_descriptor)
                          (fun sd => Some (sd_columns_slice sd)))) |} = Err se ->
     fst (@get_table_metadata ST self database_name table_name_arg w)
     = Raise (internal_error "Failed to serialize result"
                (error_payload (serde_display se))))
  /\ "Failed to serialize result" <> "Failed to list databases"
  /\ "Failed to serialize result" <> "Failed to get tables"
  /\ "Failed to serialize result" <> "Failed to get table metadata".
Proof.
  unfold list_databases, get_database_metadata, get_table_metadata, unwrap,
    bind, ret, log_info, send_get_databases, send_get_tables, send_get_table,
    question, serialize_result, map_err, record_call, append_line, to_value.
  split; [|split; [|split; [|split; [|split]]]].
  - intros region response se Hreg He Hs. rewrite Hreg. gated; rewrite He; cbn;
      rewrite Hs; reflexivity.
  - intros db response se He Hs. gated; rewrite He; cbn; rewrite Hs; reflexivity.
  - intros db t response se He Hs. gated; rewrite He; gated; rewrite Hs; reflexivity.
  - discriminate.
  - discriminate.
  - discriminate.
Qed.

Lemma serialization_failure_distinct_witness :
  fst (@list_databases broken_serializer scenario w0)
  = Raise (internal_error "Failed to serialize result"
             (error_payload "key must be a string"))
  /\ fst (@get_database_metadata broken_serializer scenario "empty_db" w0)
     = Raise (internal_error "Failed to serialize result"
                (error_payload "key must be a string"))
  /\ fst (@get_table_metadata broken_serializer scenario "db1" "t1" w0)
     = Raise (internal_error "Failed to serialize result"
                (error_payload "key must be a string")).
Proof.
  destruct (@serialization_failure_distinct broken_serializer broken_serializer
              broken_serializer scenario w0) as (H1 & H2 & H3 & _).
  split; [|split].
  - exact (H1 "eu-west-1" _ {| serde_display := "key must be a string" |}
              eq_refl eq_refl eq_refl).
  - exact (H2 "empty_db" _ {| serde_display := "key must be a string" |}
              eq_refl eq_refl).
  - exact (H3 "db1" "t1" _ {| serde_display := "key must be a string" |}
              eq_refl eq_refl).
Defined.

(** Lemmas on the world threaded through the tools: the steps that touch
    it only append to the call log and to the log lines. *)
Lemma bind_counters {A B : Type} (m : M A) (k : A -> M B) (w : World) :
  (forall w1, counters (snd (m w1)) = counters w1) ->
  (forall a w1, counters (snd (k a w1)) = counters w1) ->
  counters (snd (bind m k w)) = counters w.
Proof.
  intros Hm Hk. unfold bind.
  specialize (Hm w). destruct (m w) as [[a|e|s] w1]; cbn in *; [rewrite Hk|..]; exact Hm.
Qed.

Create HintDb world_frame.

Lemma ret_counters {A : Type} (a : A) w : counters (snd (ret a w)) = counters w.
Proof. reflexivity. Qed.

Lemma question_counters {A : Type} (r : Result A ErrorData) w :
  counters (snd (question r w)) = counters w.
Proof. destruct r; reflexivity. Qed.

Lemma unwrap_counters {A : Type} (o : option A) w :
  counters (snd (unwrap o w)) = counters w.
Proof. destruct o; reflexivity. Qed.

Lemma log_info_counters (msg : M string) w :
  (forall w1, counters (snd (msg w1)) = counters w1) ->
  counters (snd (log_info msg w)) = counters w.
Proof.
  intros Hm. unfold log_info. destruct (log_info_enabled w); [|reflexivity].
  specialize (Hm w). destruct (msg w) as [[s|e|s] w1]; exact Hm.
Qed.

Lemma send_get_databases_counters c w :
  counters (snd (send_get_databases c w)) = counters w.
Proof. reflexivity. Qed.

Lemma send_get_tables_counters c db w :
  counters (snd (send_get_tables c db w)) = counters w.
Proof. reflexivity. Qed.

Lemma send_get_table_counters c db t w :
  counters (snd (send_get_table c db t w)) = counters w.
Proof. reflexivity. Qed.

Lemma serialize_result_counters {T : Type} `{Serialize T} (x : T) w :
  counters (snd (serialize_result x w)) = counters w.
Proof. apply question_counters. Qed.

#[export] Hint Resolve ret_counters question_counters unwrap_counters
  log_info_counters send_get_databases_counters send_get_tables_counters
  send_get_table_counters serialize_result_counters bind_counters : world_frame.

(** Case analysis through a tool body: unfold the monad and split on
    every result the body inspects. *)
Ltac run_tool :=
  unfold list_databases, get_database_metadata, get_table_metadata, unwrap,
    bind, ret, panic, log_info, send_get_databases, send_get_tables,
    send_get_table, question, serialize_result, map_err, content_json,
    record_call, append_line, to_value;
  repeat (cbn; match goal with
               | H : log_info_enabled ?w = _ |- context [log_info_enabled ?w] =>
                   rewrite H
               | |- context [log_info_enabled ?w] =>
                   let H := fresh "Hlog" in destruct (log_info_enabled w) eqn:H
               | |- context [client_region ?c] => destruct (client_region c)
               | |- context [on_get_databases ?c] => destruct (on_get_databases c)
               | |- context [on_get_tables ?c ?d] => destruct (on_get_tables c d)
               | |- context [on_get_table ?c ?d ?t] => destruct (on_get_table c d t)
               | |- context [match ?f ?x with Ok _ => _ | Err _ => _ end] =>
                   is_var f; destruct (f x)
               end);
  cbn.

(** Claim C6, as the code has it: none of the three tools records a
    metric; the counters of the world are the same after any invocation,
    successful or failing, as before it. *)
Theorem tools_leave_counters_unchanged
  `{SL : Serialize ListDatabasesResult} `{SD : Serialize DatabaseMetadata}
  `{ST : Serialize TableMetadata} (self : GlueDataCatalog)
  (database_name table_name_arg : string) (w : World) :
  counters (snd (@list_databases SL self w)) = counters w
  /\ counters (snd (@get_database_metadata SD self database_name w)) = counters w
  /\ counters (snd (@get_table_metadata ST self database_name table_name_arg w))
     = counters w.
Proof.
  unfold list_databases, get_database_metadata, get_table_metadata.
  split; [|split]; repeat (apply bind_counters; intros; cbv zeta); auto with world_frame.
Qed.

(** Claim C6 fails: neither a successful [list_databases] increments a
    counter tagged [list_databases], nor a failing one a counter tagged
    [list_databases] and [aws_call_error]. *)
Lemma tools_counter_increment_counterexample :
  ~ (exists labels, In ("list_databases", labels)
                       (counters (snd (list_databases scenario w0))))
  /\ ~ (exists name labels, In (name, labels)
                              (counters (snd (list_databases failing w0)))
                            /\ In ("error", "aws_call_error") labels).
Proof.
  split.
  - cbn. intros (labels & []).
  - cbn. intros (name & labels & [] & _).
Qed.

(** Claim C7: [get_info] is the same for every facade: protocol version
    [V_2024_11_05], capabilities with tools enabled and nothing else
    (no resources, prompts, logging or experimental capability), and a
    non-empty instructions string. *)
Theorem get_info_fixed (s1 s2 : GlueDataCatalog) :
  get_info s1 = get_info s2
  /\ protocol_version (get_info s1) = V_2024_11_05
  /\ capabilities (get_info s1)
     = {| experimental := None; logging := None; prompts := None;
          resources := None; tools := Some {| tools_list_changed := None |} |}
  /\ exists i, instructions (get_info s1) = Some i /\ 0 < String.length i.
Proof.
  split; [reflexivity|]. split; [reflexivity|]. split; [reflexivity|].
  eexists. split; [reflexivity|]. cbn. apply Nat.lt_0_succ.
Qed.

(** Claim C8: [from_env] sends the probe [get_databases] (one backend
    call) before returning; on the probe's failure it panics instead of
    returning a facade, the message carrying the error's [Debug]
    rendering; on its success it returns the facade holding the client. *)
Theorem from_env_probe (c : Client) (w : World) :
  calls (snd (from_env c w)) = (calls w ++ [GetDatabases])%list
  /\ fst (from_env c w)
     = match on_get_databases c with
       | Ok _ => Ret (new c)
       | Err e => Panic ("Couldn't connect to AWS: " ++ sdk_debug e)
       end.
Proof.
  unfold from_env, bind, send_get_databases, ret, panic, record_call. cbn.
  destruct (on_get_databases c); split; reflexivity.
Qed.

(** Claim C9: the tools validate nothing: whatever the argument strings,
    the empty string included, they reach the backend unchanged, and the
    only error the three tools raise is an internal error (never
    invalid-parameters). *)
Theorem no_input_validation
  `{SL : Serialize ListDatabasesResult} `{SD : Serialize DatabaseMetadata}
  `{ST : Serialize TableMetadata} (self : GlueDataCatalog)
  (database_name table_name_arg : string) (w : World) :
  calls (snd (@get_database_metadata SD self database_name w))
  = (calls w ++ [GetTables database_name])%list
  /\ calls (snd (@get_table_metadata ST self database_name table_name_arg w))
     = (calls w ++ [GetTable database_name table_name_arg])%list
  /\ (raised_code (fst (@list_databases SL self w)) = None
      \/ raised_code (fst (@list_databases SL self w)) = Some INTERNAL_ERROR)
  /\ (raised_code (fst (@get_database_metadata SD self database_name w)) = None
      \/ raised_code (fst (@get_database_metadata SD self database_name w))
         = Some INTERNAL_ERROR)
  /\ (raised_code (fst (@get_table_metadata ST self database_name table_name_arg w))
      = None
      \/ raised_code (fst (@get_table_metadata ST self database_name table_name_arg w))
         = Some INTERNAL_ERROR).
Proof.
  split; [|split; [|split; [|split]]]; run_tool; auto.
Qed.

(** Claim C10: [list_resources] returns no resource and no cursor, while
    [read_resource] succeeds on exactly the two URIs
    [str:////Users/to/some/path/] and [memo://insights], with one fixed
    text content carrying the requested URI, and raises
    resource-not-found, with the URI as payload, on every other URI. *)
Theorem resources_surface (self : GlueDataCatalog)
  (request : option PaginatedRequestParam) :
  list_resources self request = Ok {| resources_list := []; next_cursor := None |}
  /\ read_resource self "str:////Users/to/some/path/"
     = Ok {| contents := [{| rc_uri := "str:////Users/to/some/path/";
                             mime_type := Some "text"; text := cwd_text |}] |}
  /\ read_resource self "memo://insights"
     = Ok {| contents := [{| rc_uri := "memo://insights";
                             mime_type := Some "text"; text := memo_text |}] |}
  /\ (forall uri : string,
        uri <> "str:////Users/to/some/path/" -> uri <> "memo://insights" ->
        read_resource self uri
        = Err (resource_not_found "resource_not_found"
                 (Some (VObject [("uri", VString uri)])))).
Proof.
  split; [reflexivity|]. split; [reflexivity|]. split; [reflexivity|].
  intros uri H1 H2. unfold read_resource.
  apply String.eqb_neq in H1, H2. rewrite H1, H2. reflexivity.
Qed.

Lemma resources_surface_witness :
  read_resource scenario "memo://other"
  = Err (resource_not_found "resource_not_found"
           (Some (VObject [("uri", VString "memo://other")]))).
Proof.
  destruct (resources_surface scenario None) as (_ & _ & _ & H).
  apply H; intro E; discriminate E.
Defined.

(** ** Further properties of the code *)

(** Without a configured region and with [Info] logging on,
    [list_databases] panics at the [region().unwrap()] among its log
    line's arguments, before any backend call and without logging: the
    world is left as it was. *)
Theorem list_databases_no_region_panics
  `{SL : Serialize ListDatabasesResult} (self : GlueDataCatalog) (w : World)
  (Hnone : client_region (client self) = None)
  (Hinfo : log_info_enabled w = true) :
  @list_databases SL self w
  = (Panic "called `Option::unwrap()` on a `None` value", w).
Proof.
  unfold list_databases, log_info, unwrap, bind, panic. rewrite Hinfo, Hnone.
  reflexivity.
Qed.

Lemma list_databases_no_region_panics_witness :
  list_databases bare w0 = (Panic "called `Option::unwrap()` on a `None` value", w0).
Proof. apply list_databases_no_region_panics; reflexivity. Defined.

(** Panics and backend calls: [list_databases] panics exactly when the
    client has no region and [Info] logging is on, and sends
    [GetDatabases] in every other case (with [Info] off a regionless
    client reaches the backend); [get_database_metadata] and
    [get_table_metadata] never panic. *)
Theorem tools_panic_only_without_region
  `{SL : Serialize ListDatabasesResult} `{SD : Serialize DatabaseMetadata}
  `{ST : Serialize TableMetadata} (self : GlueDataCatalog)
  (database_name table_name_arg : string) (w : World) :
  is_panic (fst (@list_databases SL self w))
  = match client_region (client self) with
    | None => log_info_enabled w
    | Some _ => false
    end
  /\ calls (snd (@list_databases SL self w))
     = (calls w ++ match client_region (client self), log_info_enabled w with
                   | None, true => []
                   | _, _ => [GetDatabases]
                   end)%list
  /\ is_panic (fst (@get_database_metadata SD self database_name w)) = false
  /\ is_panic (fst (@get_table_metadata ST self database_name table_name_arg w)) = false.
Proof.
  split; [|split; [|split]]; run_tool; rewrite ?app_nil_r; reflexivity.
Qed.

(** Every error the three tools raise is an internal error whose payload
    is an object with a single string field [error]. *)
Theorem tool_errors_payload_shape
  `{SL : Serialize ListDatabasesResult} `{SD : Serialize DatabaseMetadata}
  `{ST : Serialize TableMetadata} (self : GlueDataCatalog)
  (database_name table_name_arg : string) (w : World) :
  (match fst (@list_databases SL self w) with
   | Raise e => code e = INTERNAL_ERROR /\ exists s, data e = error_payload s
   | _ => True end)
  /\ (match fst (@get_database_metadata SD self database_name w) with
      | Raise e => code e = INTERNAL_ERROR /\ exists s, data e = error_payload s
      | _ => True end)
  /\ (match fst (@get_table_metadata ST self database_name table_name_arg w) with
      | Raise e => code e = INTERNAL_ERROR /\ exists s, data e = error_payload s
      | _ => True end).
Proof.
  split; [|split]; run_tool; try exact I; split; try reflexivity; eexists; reflexivity.
Qed.

(** A successful tool call, whatever the serializers, returns one JSON
    content and [is_error = Some false]. *)
Theorem tool_success_shape
  `{SL : Serialize ListDatabasesResult} `{SD : Serialize DatabaseMetadata}
  `{ST : Serialize TableMetadata} (self : GlueDataCatalog)
  (database_name table_name_arg : string) (w : World) :
  (match fst (@list_databases SL self w) with
   | Ret r => is_error r = Some false /\ exists v, content r = [ContentJson v]
   | _ => True end)
  /\ (match fst (@get_database_metadata SD self database_name w) with
      | Ret r => is_error r = Some false /\ exists v, content r = [ContentJson v]
      | _ => True end)
  /\ (match fst (@get_table_metadata ST self database_name table_name_arg w) with
      | Ret r => is_error r = Some false /\ exists v, content r = [ContentJson v]
      | _ => True end).
Proof.
  split; [|split]; run_tool; try exact I; split; try reflexivity; eexists; reflexivity.
Qed.

(** Log lines with [Info] logging on: [list_databases] of a client with
    a region logs one line naming the region, whatever the backend
    answers; [get_database_metadata] logs one line naming the database,
    with or without region; [get_table_metadata] logs one line when the
    backend fails and two when it answers, the second reporting the
    number of columns the call returns. *)
Theorem tool_log_lines
  `{SL : Serialize ListDatabasesResult} `{SD : Serialize DatabaseMetadata}
  (self : GlueDataCatalog) (database_name table_name_arg : string) (w : World)
  (Hinfo : log_info_enabled w = true) :
  (forall region, client_region (client self) = Some region ->
     log_lines (snd (@list_databases SL self w))
     = app (log_lines w) ["Listing databases in " ++ region])
  /\ log_lines (snd (@get_database_metadata SD self database_name w))
     = app (log_lines w) ["Getting tables for database " ++ database_name]
  /\ (forall e, on_get_table (client self) database_name table_name_arg = Err e ->
        log_lines (snd (get_table_metadata self database_name table_name_arg w))
        = app (log_lines w) ["Getting columns for table " ++ table_name_arg])
  /\ (forall response,
        on_get_table (client self) database_name table_name_arg = Ok response ->
        exists cols : list string,
          fst (get_table_metadata self database_name table_name_arg w)
          = Ret (success [ContentJson (VObject [("name", VString table_name_arg);
                                                ("columns", VArray (map VString cols))])])
          /\ log_lines (snd (get_table_metadata self database_name table_name_arg w))
             = app (log_lines w) ["Getting columns for table " ++ table_name_arg;
                                  "Got " ++ nat_to_string (length cols)
                                    ++ " columns for table " ++ table_name_arg]).
Proof.
  split; [|split; [|split]].
  - intros region Hreg. unfold list_databases. rewrite Hreg.
    run_tool; rewrite <- ?app_assoc; congruence.
  - run_tool; rewrite <- ?app_assoc; congruence.
  - intros e He. unfold get_table_metadata, bind, log_info, send_get_table, question,
      ret, map_err, record_call, append_line. cbn. rewrite Hinfo. cbn. rewrite He.
    reflexivity.
  - intros response He. eexists. unfold get_table_metadata, bind, ret, log_info,
      send_get_table, question, serialize_result, map_err, content_json, record_call,
      append_line, to_value.
    cbn. rewrite Hinfo. cbn. rewrite He. cbn. rewrite ?Hinfo. cbn.
    split; [reflexivity|]. rewrite <- ?app_assoc. reflexivity.
Qed.

Lemma tool_log_lines_witness :
  log_lines (snd (get_database_metadata (new failing_regionless) "sales" w0))
  = ["Getting tables for database sales"]
  /\ log_lines (snd (get_table_metadata failing "db1" "t1" w0))
     = ["Getting columns for table t1"]
  /\ exists cols : list string,
       fst (get_table_metadata scenario "db1" "t1" w0)
       = Ret (success [ContentJson (VObject [("name", VString "t1");
                                             ("columns", VArray (map VString cols))])])
       /\ log_lines (snd (get_table_metadata scenario "db1" "t1" w0))
          = app (log_lines w0) ["Getting columns for table t1";
                                "Got " ++ nat_to_string (length cols)
                                  ++ " columns for table t1"].
Proof.
  destruct (tool_log_lines (new failing_regionless) "sales" "t1" w0 eq_refl)
    as (_ & H2 & _ & _).
  destruct (tool_log_lines failing "db1" "t1" w0 eq_refl) as (_ & _ & H3 & _).
  destruct (tool_log_lines scenario "db1" "t1" w0 eq_refl) as (_ & _ & _ & H4).
  split; [|split].
  - exact H2.
  - exact (H3 denied eq_refl).
  - apply (H4 _ eq_refl).
Defined.

(** With [Info] logging off none of the three tools writes a log line,
    whatever the client, arguments and serializers. *)
Theorem tools_silent_without_info
  `{SL : Serialize ListDatabasesResult} `{SD : Serialize DatabaseMetadata}
  `{ST : Serialize TableMetadata} (self : GlueDataCatalog)
  (database_name table_name_arg : string) (w : World)
  (Hoff : log_info_enabled w = false) :
  log_lines (snd (@list_databases SL self w)) = log_lines w
  /\ log_lines (snd (@get_database_metadata SD self database_name w)) = log_lines w
  /\ log_lines (snd (@get_table_metadata ST self database_name table_name_arg w))
     = log_lines w.
Proof.
  split; [|split]; run_tool; congruence.
Qed.

Lemma tools_silent_without_info_witness :
  log_lines (snd (list_databases (new failing_regionless) w_quiet)) = []
  /\ log_lines (snd (get_database_metadata scenario "empty_db" w_quiet)) = []
  /\ log_lines (snd (get_table_metadata scenario "db1" "t1" w_quiet)) = [].
Proof.
  destruct (tools_silent_without_info (new failing_regionless) "" "" w_quiet eq_refl)
    as (H1 & _ & _).
  destruct (tools_silent_without_info scenario "empty_db" "t1" w_quiet eq_refl)
    as (_ & H2 & _).
  destruct (tools_silent_without_info scenario "db1" "t1" w_quiet eq_refl)
    as (_ & _ & H3).
  split; [exact H1 | split; [exact H2 | exact H3]].
Defined.

(** When the describe-table answer carries no table at all,
    [get_table_metadata] still succeeds with the input name and no
    columns. *)
Theorem get_table_metadata_no_table (self : GlueDataCatalog)
  (database_name table_name_arg : string) (w : World) (response : GetTableOutput)
  (Hr : on_get_table (client self) database_name table_name_arg = Ok response)
  (Hnone : table response = None) :
  fst (get_table_metadata self database_name table_name_arg w)
  = Ret (success [ContentJson (VObject [("name", VString table_name_arg);
                                        ("columns", VArray [])])]).
Proof.
  unfold get_table_metadata, bind, ret, log_info, send_get_table,
    question, serialize_result, map_err, content_json, record_call.
  rewrite Hr. cbn. rewrite Hnone. gated; reflexivity.
Qed.

Definition tableless_client : Client :=
  {| client_region := None; on_get_databases := on_get_databases bare_client;
     on_get_tables := fun _ => no_tables;
     on_get_table := fun _ _ => Ok {| table := None |} |}.

Lemma get_table_metadata_no_table_witness :
  fst (get_table_metadata (new tableless_client) "db" "gone" w0)
  = Ret (success [ContentJson (VObject [("name", VString "gone"); ("columns", VArray [])])]).
Proof. apply (get_table_metadata_no_table _ _ _ _ {| table := None |}); reflexivity. Defined.

(** When the table has a storage descriptor, the returned columns are the
    names of the descriptor's columns, in the descriptor's order, the
    table name reported by the backend being ignored for the input one. *)
Theorem get_table_metadata_columns (self : GlueDataCatalog)
  (database_name table_name_arg : string) (w : World)
  (response : GetTableOutput) (tbl : Table) (sd : StorageDescriptor)
  (Hr : on_get_table (client self) database_name table_name_arg = Ok response)
  (Ht : table response = Some tbl)
  (Hsd : storage_descriptor tbl = Some sd) :
  fst (get_table_metadata self database_name table_name_arg w)
  = Ret (success [ContentJson (VObject [("name", VString table_name_arg);
       ("columns", VArray (map VString (map col_name (sd_columns_slice sd))))])]).
Proof.
  unfold get_table_metadata, bind, ret, log_info, send_get_table,
    question, serialize_result, map_err, content_json, record_call.
  rewrite Hr. cbn. rewrite Ht. cbn. rewrite Hsd. gated; reflexivity.
Qed.

Lemma get_table_metadata_columns_witness :
  fst (get_table_metadata scenario "db1" "t1" w0)
  = Ret (success [ContentJson (VObject [("name", VString "t1");
       ("columns", VArray [VString "id"; VString "name"])])]).
Proof.
  apply (get_table_metadata_columns scenario "db1" "t1" w0
           {| table := Some {| table_name := "t1";
              storage_descriptor := Some {| sd_columns := Some [{| col_name := "id" |};
                                                                {| col_name := "name" |}] |} |} |}
           {| table_name := "t1";
              storage_descriptor := Some {| sd_columns := Some [{| col_name := "id" |};
                                                                {| col_name := "name" |}] |} |}
           {| sd_columns := Some [{| col_name := "id" |}; {| col_name := "name" |}] |});
    reflexivity.
Defined.

(** [get_prompt] on [example_prompt] with a string [message] argument
    returns one user message quoting it. *)
Theorem get_prompt_example_message (self : GlueDataCatalog) (args : JsonObject)
  (m : string) (Hm : obj_get "message" args = Some (VString m)) :
  get_prompt self {| gp_name := "example_prompt"; arguments := Some args |}
  = Ok {| gp_description := None;
          messages := [{| role := User;
                          pm_content := PromptText
                            ("This is an example prompt with your message here: '"
                             ++ m ++ "'") |}] |}.
Proof. unfold get_prompt. cbn. rewrite Hm. reflexivity. Qed.

Lemma get_prompt_example_message_witness :
  get_prompt scenario {| gp_name := "example_prompt";
                         arguments := Some [("other", VBool true); ("message", VString "hi")] |}
  = Ok {| gp_description := None;
          messages := [{| role := User;
                          pm_content := PromptText
                            "This is an example prompt with your message here: 'hi'" |}] |}.
Proof. exact (get_prompt_example_message scenario [("other", VBool true); ("message", VString "hi")] "hi" eq_refl). Defined.

(** [get_prompt] on [example_prompt] without arguments, or whose
    arguments bind [message] to no string (absent, or a number, array,
    ...), is an invalid-parameters error without payload. *)
Theorem get_prompt_example_no_message (self : GlueDataCatalog) :
  get_prompt self {| gp_name := "example_prompt"; arguments := None |}
  = Err (invalid_params "No message provided to example_prompt" None)
  /\ (forall args : JsonObject,
        (forall s, obj_get "message" args <> Some (VString s)) ->
        get_prompt self {| gp_name := "example_prompt"; arguments := Some args |}
        = Err (invalid_params "No message provided to example_prompt" None)).
Proof.
  split; [reflexivity|].
  intros args H. unfold get_prompt. cbn.
  destruct (obj_get "message" args) as [v|]; [|reflexivity].
  destruct v; try reflexivity. exfalso. exact (H s eq_refl).
Qed.

Lemma get_prompt_example_no_message_witness :
  get_prompt scenario {| gp_name := "example_prompt";
                         arguments := Some [("message", VNumber 42)] |}
  = Err (invalid_params "No message provided to example_prompt" None).
Proof.
  apply (proj2 (get_prompt_example_no_message scenario)).
  intros s E. discriminate E.
Defined.

(** [get_prompt] on any other prompt name is the invalid-parameters
    error [prompt not found], whatever the arguments. *)
Theorem get_prompt_unknown (self : GlueDataCatalog) (name : string)
  (args : option JsonObject) (Hname : name <> "example_prompt") :
  get_prompt self {| gp_name := name; arguments := args |}
  = Err (invalid_params "prompt not found" None).
Proof.
  unfold get_prompt. cbn. apply String.eqb_neq in Hname. rewrite Hname. reflexivity.
Qed.

Lemma get_prompt_unknown_witness :
  get_prompt scenario {| gp_name := "Example_prompt";
                         arguments := Some [("message", VString "hi")] |}
  = Err (invalid_params "prompt not found" None).
Proof. apply get_prompt_unknown. intro E. discriminate E. Defined.

(** Listing and getting prompts agree: every prompt [list_prompts]
    lists is served by [get_prompt] as soon as each of its required
    arguments is given as a string. *)
Theorem list_prompts_served (self : GlueDataCatalog)
  (request : option PaginatedRequestParam) (lp : ListPromptsResult)
  (Hlp : list_prompts self request = Ok lp) :
  forall (pr : Prompt) (args : JsonObject),
    In pr (prompts_list lp) ->
    (forall a, In a (unwrap_or_default (prompt_arguments pr)) ->
       pa_required a = Some true -> exists s, obj_get (pa_name a) args = Some (VString s)) ->
    exists r, get_prompt self {| gp_name := prompt_name pr; arguments := Some args |} = Ok r.
Proof.
  unfold list_prompts in Hlp. injection Hlp as <-.
  intros pr args [<- | []] Hargs. cbn in Hargs.
  destruct (Hargs _ (or_introl eq_refl) eq_refl) as [s Hs]. cbn in Hs.
  eexists. apply (get_prompt_example_message self args s Hs).
Qed.

Lemma list_prompts_served_witness :
  exists r, get_prompt scenario {| gp_name := "example_prompt";
                                   arguments := Some [("message", VString "x")] |} = Ok r.
Proof.
  apply (list_prompts_served scenario None _ eq_refl
           (prompt_new "example_prompt"
              (Some "This is an example prompt that takes one required argument, message")
              (Some [{| pa_name := "message";
                        pa_description := Some "A message to put in the prompt";
                        pa_required := Some true |}]))
           [("message", VString "x")]).
  - left. reflexivity.
  - intros a [<- | []] _. exists "x". reflexivity.
Defined.

(** [start_server] probes AWS before it looks at the bind address: when
    the probe fails it panics whatever the address and parser, and an
    unparsable address is reported only after a successful probe; the
    probe is the one backend call it makes, and on success the server
    serves the facade holding the client. *)
Theorem start_server_probe_first (SocketAddr : Type)
  (parse_socket_addr : string -> Result SocketAddr string)
  (sse_serve : SocketAddr -> Result unit string)
  (c : Client) (bind_address : string) (w : World) :
  calls (snd (start_server SocketAddr parse_socket_addr sse_serve c bind_address w))
  = (calls w ++ [GetDatabases])%list
  /\ (forall e, on_get_databases c = Err e ->
        fst (start_server SocketAddr parse_socket_addr sse_serve c bind_address w)
        = Panic ("Couldn't connect to AWS: " ++ sdk_debug e))
  /\ (forall resp pe, on_get_databases c = Ok resp ->
        parse_socket_addr bind_address = Err pe ->
        fst (start_server SocketAddr parse_socket_addr sse_serve c bind_address w)
        = Ret (Err pe))
  /\ (forall resp addr, on_get_databases c = Ok resp ->
        parse_socket_addr bind_address = Ok addr -> sse_serve addr = Ok tt ->
        fst (start_server SocketAddr parse_socket_addr sse_serve c bind_address w)
        = Ret (Ok {| serving_service := new c |})).
Proof.
  unfold start_server, from_env, bind, tracing_info, send_get_databases, ret, panic,
    record_call, append_line.
  destruct (tracing_info_enabled w);
  (split; [|split; [|split]]);
  only 1, 5: (cbn; destruct (on_get_databases c); cbn; [|reflexivity];
    destruct (parse_socket_addr bind_address) as [addr|]; [|reflexivity];
    destruct (sse_serve addr); reflexivity);
  only 1, 4: (intros e He; cbn; rewrite He; reflexivity);
  only 1, 3: (intros resp pe He Hp; cbn; rewrite He; cbn; rewrite Hp; reflexivity);
  intros resp addr He Hp Hs; cbn; rewrite He; cbn; rewrite Hp, Hs; reflexivity.
Qed.

(** A parser that accepts no address, for the witness. *)
Definition reject_all (s : string) : Result unit string :=
  Err "invalid socket address syntax".

Lemma start_server_probe_first_witness :
  fst (start_server unit reject_all (fun _ => Ok tt) failing_client "not an address" w0)
  = Panic "Couldn't connect to AWS: ServiceError(ServiceError { source: AccessDeniedException })"
  /\ fst (start_server unit reject_all (fun _ => Ok tt) scenario_client "not an address" w0)
     = Ret (Err "invalid socket address syntax")
  /\ fst (start_server unit (fun _ => Ok tt) (fun _ => Ok tt) scenario_client
            "127.0.0.1:8000" w0)
     = Ret (Ok {| serving_service := new scenario_client |}).
Proof.
  destruct (start_server_probe_first unit reject_all (fun _ => Ok tt) failing_client
              "not an address" w0) as (_ & H1 & _ & _).
  destruct (start_server_probe_first unit reject_all (fun _ => Ok tt) scenario_client
              "not an address" w0) as (_ & _ & H2 & _).
  destruct (start_server_probe_first unit (fun _ => Ok tt) (fun _ => Ok tt) scenario_client
              "127.0.0.1:8000" w0) as (_ & _ & _ & H3).
  split; [|split].
  - exact (H1 denied eq_refl).
  - exact (H2 _ _ eq_refl eq_refl).
  - exact (H3 _ tt eq_refl eq_refl eq_refl).
Defined.
